(** * create_icons.py: placeholder PNG icons written with struct and zlib

    A shallow embedding of [apps/desktop/src-tauri/icons/create_icons.py]:
    the function [create_png], the table [sizes] and the loop of the script,
    together with the parts of Python's [struct] and [zlib] modules they call,
    and a reader of the produced file format against which the output is
    checked. *)

From Stdlib Require Import ZArith Lia List.
From Stdlib Require Import Strings.Byte.
From stdpp Require Import base option gmap strings list pretty.

Local Open Scope Z_scope.

(** ** Bytes *)

Abbreviation bytes := (list byte).

Definition byte_to_Z (b : byte) : Z := Z.of_N (Byte.to_N b).

Definition byte_of_Z (z : Z) : byte :=
  default x00 (Byte.of_N (Z.to_N (z mod 256))).

(** ** Python values and exceptions *)

(** The objects [create_png] may receive as [size]: an [int], or an object
    that is no [int] and has no [__index__] (a float, a str, None); of the
    latter only its rendering by [str()] matters here. *)
Inductive pyobj :=
  | PyInt (n : Z)
  | PyOther (repr : string).

Inductive exn :=
  | TypeError
  | ValueError
  | StructError
  | OSError.

Inductive result (A : Type) :=
  | Ok (a : A)
  | Raise (e : exn).
Arguments Ok {A} a.
Arguments Raise {A} e.

Global Instance result_ret : MRet result := λ A a, Ok a.
Global Instance result_bind : MBind result := λ A B f m,
  match m with
  | Ok a => f a
  | Raise e => Raise e
  end.

Definition py_str (o : pyobj) : string :=
  match o with
  | PyInt n => pretty n
  | PyOther repr => repr
  end.

(** [range(n)]: the integers 0 .. n-1, none when n <= 0. *)
Definition py_range (n : pyobj) : result (list Z) :=
  match n with
  | PyInt n => Ok (seqZ 0 n)
  | PyOther _ => Raise TypeError
  end.

(** [bytes([...])] of a list of ints. *)
Fixpoint py_bytes (l : list Z) : result bytes :=
  match l with
  | [] => Ok []
  | z :: l' =>
      if (0 <=? z) && (z <? 256)
      then bs ← py_bytes l'; Ok (byte_of_Z z :: bs)
      else Raise ValueError
  end.

(** [for x in xs: s = body(x, s)], the loop state threaded through. *)
Fixpoint for_in {A S : Type} (xs : list A) (body : A → S → result S) (s : S)
  : result S :=
  match xs with
  | [] => Ok s
  | x :: xs' => s' ← body x s; for_in xs' body s'
  end.

(** ** struct.pack, big-endian, for the codes I and B *)

Inductive fmt_code :=
  | fmt_I
  | fmt_B.

Definition fmt_size (c : fmt_code) : nat :=
  match c with
  | fmt_I => 4
  | fmt_B => 1
  end.

(** The [n] low bytes of [v], most significant first. *)
Fixpoint be_bytes (n : nat) (v : Z) : bytes :=
  match n with
  | O => []
  | S n' => byte_of_Z (Z.shiftr v (8 * Z.of_nat n')) :: be_bytes n' v
  end.

Definition pack_field (c : fmt_code) (arg : pyobj) : result bytes :=
  match arg with
  | PyOther _ => Raise StructError
  | PyInt v =>
      if (0 <=? v) && (v <? 2 ^ (8 * Z.of_nat (fmt_size c)))
      then Ok (be_bytes (fmt_size c) v)
      else Raise StructError
  end.

Fixpoint struct_pack (fmt : list fmt_code) (args : list pyobj) : result bytes :=
  match fmt, args with
  | [], [] => Ok []
  | c :: fmt', a :: args' =>
      b ← pack_field c a; bs ← struct_pack fmt' args'; Ok (b ++ bs)
  | _, _ => Raise StructError
  end.

(** ** zlib.crc32: the CRC-32 of ISO 3309, bit by bit *)

Definition crc_poly : Z := 0xEDB88320.

Definition crc_shift (c : Z) : Z :=
  if Z.testbit c 0 then Z.lxor (Z.shiftr c 1) crc_poly else Z.shiftr c 1.

Definition crc_byte (c : Z) (b : byte) : Z :=
  Nat.iter 8 crc_shift (Z.lxor c (byte_to_Z b)).

Definition crc32 (data : bytes) : Z :=
  Z.lxor (fold_left crc_byte data 0xFFFFFFFF) 0xFFFFFFFF.

(** ** The outside world: files and standard output *)

Inductive event :=
  | EvWrite (filename : string) (data : bytes)
  | EvPrint (line : string).

(** [files] maps a path to its contents, [denied] holds the paths that
    [open(path, 'wb')] refuses, [events] logs writes and printed lines in the
    order they happen. *)
Record world := World {
  files : gmap string bytes;
  denied : gset string;
  events : list event
}.

Definition M (A : Type) : Type := world → result A * world.

Global Instance M_ret : MRet M := λ A a σ, (Ok a, σ).
Global Instance M_bind : MBind M := λ A B f m σ,
  match m σ with
  | (Ok a, σ') => f a σ'
  | (Raise e, σ') => (Raise e, σ')
  end.

Definition lift {A : Type} (r : result A) : M A := λ σ, (r, σ).

(** [with open(filename, 'wb') as f: f.write(data)], on a file system in
    which [open] is the only step that can fail: it refuses the names of
    [denied σ] with [OSError], before anything is created or truncated, and
    otherwise the whole of [data] reaches the file.  Not modelled: the
    [ValueError] of [open] for a name with a NUL character, and an error of
    [f.write] or of the closing of the file after [open] has truncated it
    (a full disk).  Statements about a call that raises are therefore made
    only for exceptions raised before line 42, or under the hypothesis that
    the name is in [denied σ]. *)
Definition write_file (filename : string) (data : bytes) : M unit := λ σ,
  if decide (filename ∈ denied σ)
  then (Raise OSError, σ)
  else (Ok (),
        {| files := <[filename := data]> (files σ);
           denied := denied σ;
           events := events σ ++ [EvWrite filename data] |}).

(** [print(line)] on a standard output that accepts every line.  Not
    modelled: an error of the stream (a closed pipe, a name that the
    encoding of the terminal cannot show), which in the script would come
    after the file has been written. *)
Definition print (line : string) : M unit := λ σ,
  (Ok (),
   {| files := files σ;
      denied := denied σ;
      events := events σ ++ [EvPrint line] |}).

(** [for x in xs: body(x)] with effects. *)
Fixpoint for_each {A : Type} (xs : list A) (body : A → M unit) : M unit :=
  match xs with
  | [] => mret ()
  | x :: xs' => body x;; for_each xs' body
  end.

(** ** The script *)

Definition tag_IHDR : bytes := ["I"; "H"; "D"; "R"]%byte.
Definition tag_IDAT : bytes := ["I"; "D"; "A"; "T"]%byte.
Definition tag_IEND : bytes := ["I"; "E"; "N"; "D"]%byte.

(** Lines 16-20 of [create_png]: the two nested loops that build
    [raw_data], one filter byte and [width] pixels per row. *)
Definition raw_data_loop (width height : pyobj) (r g b a : Z) : result bytes :=
  ys ← py_range height;
  for_in ys (λ y raw_data,
    let raw_data := raw_data ++ [x00] in
    xs ← py_range width;
    for_in xs (λ x raw_data,
      px ← py_bytes [r; g; b; a]; Ok (raw_data ++ px)) raw_data) [].

Section create_icons.

(** [zlib.compress(data, level)], a call into the zlib library. *)
Variable zlib_compress : bytes → Z → bytes.

Definition create_png (size : pyobj) (filename : string) : M unit :=
  let width := size in
  let height := size in
  let r := 124 in
  let g := 58 in
  let b := 237 in
  let a := 255 in
  raw_data ← lift (raw_data_loop width height r g b a);
  let compressed := zlib_compress raw_data 9 in
  let signature := [x89; "P"; "N"; "G"; x0d; x0a; x1a; x0a]%byte in
  ihdr_data ← lift (
    struct_pack [fmt_I; fmt_I; fmt_B; fmt_B; fmt_B; fmt_B; fmt_B]
      [width; height; PyInt 8; PyInt 6; PyInt 0; PyInt 0; PyInt 0]);
  let ihdr_crc := Z.land (crc32 (tag_IHDR ++ ihdr_data)) 0xffffffff in
  ihdr ← lift (
    len ← struct_pack [fmt_I] [PyInt 13];
    crc ← struct_pack [fmt_I] [PyInt ihdr_crc];
    Ok (len ++ tag_IHDR ++ ihdr_data ++ crc));
  let idat_crc := Z.land (crc32 (tag_IDAT ++ compressed)) 0xffffffff in
  idat ← lift (
    len ← struct_pack [fmt_I] [PyInt (Z.of_nat (length compressed))];
    crc ← struct_pack [fmt_I] [PyInt idat_crc];
    Ok (len ++ tag_IDAT ++ compressed ++ crc));
  let iend_crc := Z.land (crc32 tag_IEND) 0xffffffff in
  iend ← lift (
    len ← struct_pack [fmt_I] [PyInt 0];
    crc ← struct_pack [fmt_I] [PyInt iend_crc];
    Ok (len ++ tag_IEND ++ crc));
  write_file filename (signature ++ ihdr ++ idat ++ iend);;
  print ("Created " +:+ filename +:+ " (" +:+ py_str size +:+ "x"
           +:+ py_str size +:+ ")").

Definition sizes : list (Z * string) :=
  [ (32, "32x32.png");
    (128, "128x128.png");
    (256, "128x128@2x.png");
    (512, "icon.png") ].

(** The statements of the script after the definitions (lines 55-58). *)
Definition main : M unit :=
  for_each sizes (λ '(size, name), create_png (PyInt size) name);;
  print "Icons created successfully!".

End create_icons.

(** ** Reading the format back

    The checks of a PNG reader on a file of this kind: signature, chunk
    layout, checksums, header fields, inflation, scanlines.  It accepts only
    what the script can produce (8-bit RGBA, filter type 0, no interlace). *)

Global Instance byte_eq_dec : EqDecision byte := Byte.byte_eq_dec.

Definition be_to_Z (bs : bytes) : Z :=
  fold_left (λ acc b, acc * 256 + byte_to_Z b) bs 0.

Definition png_signature : bytes :=
  [x89; "P"; "N"; "G"; x0d; x0a; x1a; x0a]%byte.

Record chunk := Chunk {
  chunk_type : bytes;
  chunk_data : bytes;
  chunk_crc : Z
}.

Fixpoint read_chunks (fuel : nat) (bs : bytes) : option (list chunk) :=
  match fuel with
  | O => None
  | S fuel' =>
      match bs with
      | [] => Some []
      | _ =>
          let len := Z.to_nat (be_to_Z (take 4 bs)) in
          if (length bs <? 12 + len)%nat then None
          else
            cs ← read_chunks fuel' (drop (12 + len) bs);
            Some (Chunk (take 4 (drop 4 bs)) (take len (drop 8 bs))
                    (be_to_Z (take 4 (drop (8 + len) bs))) :: cs)
      end
  end.

Definition read_png (file : bytes) : option (list chunk) :=
  if bool_decide (take 8 file = png_signature)
  then read_chunks (length file) (drop 8 file)
  else None.

(** A verifier recomputes the checksum over tag and payload. *)
Definition crc_ok (c : chunk) : bool :=
  bool_decide (crc32 (chunk_type c ++ chunk_data c) = chunk_crc c).

Definition pixel : Type := Z * Z * Z * Z.

Record image := Image {
  img_width : Z;
  img_height : Z;
  img_rows : list (list pixel)
}.

Definition read_header (ihdr : bytes) : option (Z * Z) :=
  if bool_decide (length ihdr = 13%nat ∧
                  drop 8 ihdr = [x08; x06; x00; x00; x00])
  then Some (be_to_Z (take 4 ihdr), be_to_Z (take 4 (drop 4 ihdr)))
  else None.

Fixpoint read_pixels (n : nat) (bs : bytes) : option (list pixel) :=
  match n, bs with
  | O, [] => Some []
  | S n', r :: g :: b :: a :: bs' =>
      ps ← read_pixels n' bs';
      Some ((byte_to_Z r, byte_to_Z g, byte_to_Z b, byte_to_Z a) :: ps)
  | _, _ => None
  end.

Fixpoint read_scanlines (w h : nat) (raw : bytes) : option (list (list pixel)) :=
  match h, raw with
  | O, [] => Some []
  | S h', x00 :: rest =>
      row ← read_pixels w (take (4 * w) rest);
      rows ← read_scanlines w h' (drop (4 * w) rest);
      Some (row :: rows)
  | _, _ => None
  end.

Definition decode_png (inflate : bytes → option bytes) (file : bytes)
  : option image :=
  cs ← read_png file;
  if forallb crc_ok cs then
    match cs with
    | [ihdr; idat; iend] =>
        if bool_decide (chunk_type ihdr = tag_IHDR ∧
                        chunk_type idat = tag_IDAT ∧
                        chunk_type iend = tag_IEND ∧ chunk_data iend = [])
        then
          '(w, h) ← read_header (chunk_data ihdr);
          raw ← inflate (chunk_data idat);
          rows ← read_scanlines (Z.to_nat w) (Z.to_nat h) raw;
          Some (Image w h rows)
        else None
    | _ => None
    end
  else None.

(** ** The format in the words of the specification

    Raster Buffer, Chunk and Image File of the data model, written down
    independently of [create_png] to compare its output with. *)

Definition color : pixel := (124, 58, 237, 255).

Definition spec_scanline (w : nat) : bytes :=
  x00 :: concat (replicate w [x7c; x3a; xed; xff]).

Definition spec_raster (w h : nat) : bytes :=
  concat (replicate h (spec_scanline w)).

Definition spec_header (w h : Z) : bytes :=
  be_bytes 4 w ++ be_bytes 4 h ++ [x08; x06; x00; x00; x00].

Definition spec_chunk (tag payload : bytes) : bytes :=
  be_bytes 4 (Z.of_nat (length payload)) ++ tag ++ payload
    ++ be_bytes 4 (crc32 (tag ++ payload)).

Definition spec_png (deflate : bytes → Z → bytes) (s : Z) : bytes :=
  png_signature
    ++ spec_chunk tag_IHDR (spec_header s s)
    ++ spec_chunk tag_IDAT
         (deflate (spec_raster (Z.to_nat s) (Z.to_nat s)) 9)
    ++ spec_chunk tag_IEND [].

(** zlib's [compressBound]: the documented upper bound on the length of what
    [compress] returns for an input of [n] bytes. *)
Definition compressBound (n : Z) : Z :=
  n + Z.shiftr n 12 + Z.shiftr n 14 + Z.shiftr n 25 + 13.

(** ** What a call leaves behind *)

(** The line [create_png] prints. *)
Definition created_line (filename : string) (size : pyobj) : string :=
  "Created " +:+ filename +:+ " (" +:+ py_str size +:+ "x"
    +:+ py_str size +:+ ")".

(** The world after [data] was written to [filename] and [line] printed. *)
Definition after_create (σ : world) (filename : string) (data : bytes)
    (line : string) : world :=
  {| files := <[filename := data]> (files σ);
     denied := denied σ;
     events := events σ ++ [EvWrite filename data; EvPrint line] |}.

(** The compressed stream of the raster of a [s] x [s] image. *)
Definition compressed (deflate : bytes → Z → bytes) (s : Z) : bytes :=
  deflate (spec_raster (Z.to_nat s) (Z.to_nat s)) 9.

(** The bytes [create_png] hands to the file, or the exception it raises
    before opening it: a summary of lines 10-39, proved to agree with
    [create_png] in [create_png_run]. *)
Definition encode (deflate : bytes → Z → bytes) (size : pyobj)
  : result bytes :=
  match size with
  | PyOther _ => Raise TypeError
  | PyInt s =>
      if bool_decide (0 ≤ s < 2 ^ 32 ∧
                      Z.of_nat (length (compressed deflate s)) < 2 ^ 32)
      then Ok (spec_png deflate s)
      else Raise StructError
  end.

(** No files, nothing refused, nothing printed yet. *)
Definition empty_world : world := World ∅ ∅ [].

(** ** A zlib codec that only stores

    A compressor in the zlib format (RFC 1950) whose deflate stream
    (RFC 1951) consists of stored blocks, and its decompressor.  It gives the
    assumptions made on [zlib.compress] below an instance to be checked on. *)

Definition adler32 (data : bytes) : Z :=
  let '(s1, s2) :=
    fold_left (λ '(s1, s2) x,
      let s1' := (s1 + byte_to_Z x) mod 65521 in
      (s1', (s2 + s1') mod 65521)) data (1, 0) in
  s2 * 65536 + s1.

Definition block_max : nat := Z.to_nat 65535.

Definition le16 (v : Z) : bytes := [byte_of_Z v; byte_of_Z (Z.shiftr v 8)].

Fixpoint stored_blocks (fuel : nat) (data : bytes) : bytes :=
  match fuel with
  | O => []
  | S fuel' =>
      if (length data <=? block_max)%nat
      then x01 :: le16 (Z.of_nat (length data))
             ++ le16 (65535 - Z.of_nat (length data)) ++ data
      else x00 :: le16 65535 ++ le16 0 ++ take block_max data
             ++ stored_blocks fuel' (drop block_max data)
  end.

Definition stored_compress (data : bytes) (level : Z) : bytes :=
  [x78; xda] ++ stored_blocks (S (length data)) data
    ++ be_bytes 4 (adler32 data).

Fixpoint inflate_stored (fuel : nat) (bs : bytes) : option (bytes * bytes) :=
  match fuel with
  | O => None
  | S fuel' =>
      match bs with
      | hdr :: l0 :: l1 :: n0 :: n1 :: rest =>
          let len := byte_to_Z l0 + 256 * byte_to_Z l1 in
          let nlen := byte_to_Z n0 + 256 * byte_to_Z n1 in
          if bool_decide (len + nlen = 65535 ∧
                          (Z.to_nat len <= length rest)%nat)
          then
            let block := take (Z.to_nat len) rest in
            let rest' := drop (Z.to_nat len) rest in
            if bool_decide (hdr = x01) then Some (block, rest')
            else if bool_decide (hdr = x00) then
              '(data, tl) ← inflate_stored fuel' rest';
              Some (block ++ data, tl)
            else None
          else None
      | _ => None
      end
  end.

Definition stored_decompress (bs : bytes) : option bytes :=
  match bs with
  | cmf :: flg :: rest =>
      if bool_decide (byte_to_Z cmf = 0x78 ∧
                      (256 * byte_to_Z cmf + byte_to_Z flg) mod 31 = 0 ∧
                      Z.testbit (byte_to_Z flg) 5 = false)
      then
        '(data, tl) ← inflate_stored (length rest) rest;
        if bool_decide (length tl = 4%nat ∧ be_to_Z tl = adler32 data)
        then Some data else None
      else None
  | _ => None
  end.

(** * Properties *)

(** ** The checksum on known values *)

Example crc32_IEND :
  crc32 ["I"; "E"; "N"; "D"]%byte = 0xAE426082.
Proof. reflexivity. Qed.

Example crc32_check :
  crc32 (String.list_byte_of_string "123456789") = 0xCBF43926.
Proof. reflexivity. Qed.

(** ** Bytes and big-endian fields *)

Lemma byte_to_Z_range (b : byte) : 0 ≤ byte_to_Z b < 256.
Proof.
  unfold byte_to_Z. pose proof (Byte.to_N_bounded b). lia.
Qed.

Lemma byte_to_of_Z (z : Z) : byte_to_Z (byte_of_Z z) = z mod 256.
Proof.
  unfold byte_to_Z, byte_of_Z.
  assert (Hr : 0 ≤ z mod 256 < 256) by (apply Z.mod_pos_bound; lia).
  destruct (Byte.of_N (Z.to_N (z mod 256))) as [b|] eqn:E; simpl.
  - apply Byte.to_of_N in E. rewrite E. lia.
  - apply Byte.of_N_None_iff in E. lia.
Qed.

Lemma be_bytes_length (n : nat) (v : Z) : length (be_bytes n v) = n.
Proof. induction n; simpl; congruence. Qed.

Lemma be_fold_acc (bs : bytes) (acc : Z) :
  fold_left (λ acc b, acc * 256 + byte_to_Z b) bs acc
  = acc * 256 ^ Z.of_nat (length bs) + be_to_Z bs.
Proof.
  unfold be_to_Z. revert acc.
  induction bs as [|b bs IH]; intros acc.
  - simpl. lia.
  - cbn [fold_left length]. rewrite IH, (IH (0 * 256 + byte_to_Z b)).
    rewrite Nat2Z.inj_succ, Z.pow_succ_r by lia. lia.
Qed.

Lemma be_to_Z_cons (b : byte) (bs : bytes) :
  be_to_Z (b :: bs) = byte_to_Z b * 256 ^ Z.of_nat (length bs) + be_to_Z bs.
Proof.
  unfold be_to_Z at 1. cbn [fold_left]. rewrite be_fold_acc. lia.
Qed.

Lemma be_to_Z_be_bytes (n : nat) (v : Z) :
  0 ≤ v → be_to_Z (be_bytes n v) = v mod 256 ^ Z.of_nat n.
Proof.
  intros Hv. induction n as [|n IH].
  - simpl. rewrite Z.mod_1_r. reflexivity.
  - cbn [be_bytes]. rewrite be_to_Z_cons, be_bytes_length, IH, byte_to_of_Z.
    rewrite Z.shiftr_div_pow2 by lia.
    rewrite Nat2Z.inj_succ, Z.pow_succ_r by lia.
    replace (2 ^ (8 * Z.of_nat n)) with (256 ^ Z.of_nat n)
      by (rewrite Z.pow_mul_r by lia; reflexivity).
    assert (Hp : 0 < 256 ^ Z.of_nat n) by (apply Z.pow_pos_nonneg; lia).
    rewrite (Z.mul_comm 256 (256 ^ Z.of_nat n)).
    rewrite (Z.rem_mul_r v (256 ^ Z.of_nat n) 256) by lia. lia.
Qed.

Lemma be32_roundtrip (v : Z) :
  0 ≤ v < 2 ^ 32 → be_to_Z (be_bytes 4 v) = v.
Proof.
  intros Hv. rewrite be_to_Z_be_bytes by lia.
  change (256 ^ Z.of_nat 4) with (2 ^ 32). apply Z.mod_small. lia.
Qed.

(** ** The checksum fits 32 bits *)

Lemma lxor_bound (n a b : Z) :
  0 ≤ n → 0 ≤ a < 2 ^ n → 0 ≤ b < 2 ^ n → 0 ≤ Z.lxor a b < 2 ^ n.
Proof.
  intros Hn Ha Hb.
  assert (H0 : 0 ≤ Z.lxor a b) by (apply Z.lxor_nonneg; lia).
  split; [exact H0|].
  apply (Z.bounded_iff_bits_nonneg n); [lia .. |].
  intros l Hl. rewrite Z.lxor_spec.
  rewrite (proj1 (Z.bounded_iff_bits_nonneg n a Hn (proj1 Ha)) (proj2 Ha) l Hl).
  rewrite (proj1 (Z.bounded_iff_bits_nonneg n b Hn (proj1 Hb)) (proj2 Hb) l Hl).
  reflexivity.
Qed.

Lemma crc_shift_range (c : Z) : 0 ≤ c < 2 ^ 32 → 0 ≤ crc_shift c < 2 ^ 32.
Proof.
  intros Hc. unfold crc_shift.
  assert (Hs : 0 ≤ Z.shiftr c 1 < 2 ^ 31).
  { rewrite Z.shiftr_div_pow2 by lia. change (2 ^ 1) with 2.
    split; [apply Z.div_pos; lia | apply Z.div_lt_upper_bound; lia]. }
  destruct (Z.testbit c 0).
  - apply lxor_bound; [lia | lia | unfold crc_poly; lia].
  - lia.
Qed.

Lemma crc_byte_range (c : Z) (b : byte) :
  0 ≤ c < 2 ^ 32 → 0 ≤ crc_byte c b < 2 ^ 32.
Proof.
  intros Hc. unfold crc_byte.
  assert (H0 : 0 ≤ Z.lxor c (byte_to_Z b) < 2 ^ 32).
  { pose proof (byte_to_Z_range b). apply lxor_bound; lia. }
  generalize dependent (Z.lxor c (byte_to_Z b)). intros x Hx.
  do 8 (cbn [Nat.iter nat_rect]; try apply crc_shift_range). exact Hx.
Qed.

Lemma crc32_range (data : bytes) : 0 ≤ crc32 data < 2 ^ 32.
Proof.
  unfold crc32.
  assert (H : ∀ c, 0 ≤ c < 2 ^ 32 → 0 ≤ fold_left crc_byte data c < 2 ^ 32).
  { induction data as [|b data IH]; intros c Hc; cbn [fold_left].
    - exact Hc.
    - apply IH, crc_byte_range, Hc. }
  apply lxor_bound; [lia | apply H; lia | lia].
Qed.

Lemma crc32_masked (data : bytes) : Z.land (crc32 data) 0xffffffff = crc32 data.
Proof.
  change 0xffffffff with (Z.ones 32). rewrite Z.land_ones by lia.
  apply Z.mod_small, crc32_range.
Qed.

(** ** struct.pack *)

Lemma pack_field_ok (c : fmt_code) (v : Z) :
  0 ≤ v < 2 ^ (8 * Z.of_nat (fmt_size c)) →
  pack_field c (PyInt v) = Ok (be_bytes (fmt_size c) v).
Proof.
  intros Hv. unfold pack_field.
  destruct (0 <=? v) eqn:E1; [|lia].
  destruct (v <? 2 ^ (8 * Z.of_nat (fmt_size c))) eqn:E2; [|lia].
  reflexivity.
Qed.

Lemma pack_field_range (c : fmt_code) (v : Z) :
  ¬ (0 ≤ v < 2 ^ (8 * Z.of_nat (fmt_size c))) →
  pack_field c (PyInt v) = Raise StructError.
Proof.
  intros Hv. unfold pack_field.
  destruct (0 <=? v) eqn:E1; [|reflexivity].
  destruct (v <? 2 ^ (8 * Z.of_nat (fmt_size c))) eqn:E2; [lia|reflexivity].
Qed.

Lemma struct_pack_I (v : Z) :
  0 ≤ v < 2 ^ 32 → struct_pack [fmt_I] [PyInt v] = Ok (be_bytes 4 v).
Proof.
  intros Hv. cbn [struct_pack].
  rewrite (pack_field_ok fmt_I) by exact Hv.
  cbn [mbind result_bind]. rewrite app_nil_r. reflexivity.
Qed.

Lemma struct_pack_I_range (v : Z) :
  ¬ (0 ≤ v < 2 ^ 32) → struct_pack [fmt_I] [PyInt v] = Raise StructError.
Proof.
  intros Hv. cbn [struct_pack].
  rewrite (pack_field_range fmt_I) by exact Hv. reflexivity.
Qed.

Lemma struct_pack_header (s : Z) :
  0 ≤ s < 2 ^ 32 →
  struct_pack [fmt_I; fmt_I; fmt_B; fmt_B; fmt_B; fmt_B; fmt_B]
    [PyInt s; PyInt s; PyInt 8; PyInt 6; PyInt 0; PyInt 0; PyInt 0]
  = Ok (spec_header s s).
Proof.
  intros Hs. cbn [struct_pack].
  rewrite (pack_field_ok fmt_I) by exact Hs. reflexivity.
Qed.

Lemma struct_pack_header_range (s : Z) :
  ¬ (0 ≤ s < 2 ^ 32) →
  struct_pack [fmt_I; fmt_I; fmt_B; fmt_B; fmt_B; fmt_B; fmt_B]
    [PyInt s; PyInt s; PyInt 8; PyInt 6; PyInt 0; PyInt 0; PyInt 0]
  = Raise StructError.
Proof.
  intros Hs. cbn [struct_pack].
  rewrite (pack_field_range fmt_I) by exact Hs. reflexivity.
Qed.

(** ** The raster loops *)

Lemma pixel_loop (xs : list Z) (raw : bytes) :
  for_in xs (λ _ raw_data,
    px ← py_bytes [124; 58; 237; 255]; Ok (raw_data ++ px)) raw
  = Ok (raw ++ concat (replicate (length xs) [x7c; x3a; xed; xff])).
Proof.
  revert raw. induction xs as [|x xs IH]; intros raw.
  - simpl. rewrite app_nil_r. reflexivity.
  - cbn [for_in length replicate concat].
    change (py_bytes [124; 58; 237; 255]) with (Ok [x7c; x3a; xed; xff]).
    cbn [mbind result_bind]. rewrite IH, <- app_assoc. reflexivity.
Qed.

Lemma row_loop (s : Z) (ys : list Z) (raw : bytes) :
  for_in ys (λ _ raw_data,
    let raw_data := raw_data ++ [x00] in
    xs ← py_range (PyInt s);
    for_in xs (λ _ raw_data,
      px ← py_bytes [124; 58; 237; 255]; Ok (raw_data ++ px)) raw_data) raw
  = Ok (raw ++ spec_raster (Z.to_nat s) (length ys)).
Proof.
  revert raw. induction ys as [|y ys IH]; intros raw.
  - simpl. rewrite app_nil_r. reflexivity.
  - cbn [for_in py_range mbind result_bind].
    rewrite pixel_loop. cbn [mbind result_bind]. rewrite IH.
    rewrite length_seqZ. unfold spec_raster, spec_scanline.
    cbn [length replicate concat].
    rewrite <- !app_assoc. reflexivity.
Qed.

Lemma raw_data_loop_int (s : Z) :
  raw_data_loop (PyInt s) (PyInt s) 124 58 237 255
  = Ok (spec_raster (Z.to_nat s) (Z.to_nat s)).
Proof.
  pose proof (row_loop s (seqZ 0 s) []) as H.
  rewrite length_seqZ in H. exact H.
Qed.

Lemma raw_data_loop_other (repr : string) (r g b a : Z) :
  raw_data_loop (PyOther repr) (PyOther repr) r g b a = Raise TypeError.
Proof. reflexivity. Qed.

Lemma scanline_length (w : nat) :
  length (spec_scanline w) = S (4 * w).
Proof.
  unfold spec_scanline. cbn [length]. f_equal.
  induction w as [|w IH]; [reflexivity|].
  cbn [replicate concat]. rewrite length_app, IH. simpl. lia.
Qed.

Lemma raster_length (w h : nat) :
  length (spec_raster w h) = (h * (1 + 4 * w))%nat.
Proof.
  unfold spec_raster. induction h as [|h IH]; [reflexivity|].
  cbn [replicate concat]. rewrite length_app, IH, scanline_length. lia.
Qed.

(** ** What a call of [create_png] does *)

Section run.

Variable zlib_compress : bytes → Z → bytes.

Lemma result_bind_ok {A B : Type} (a : A) (f : A → result B) :
  (Ok a ≫= f) = f a.
Proof. reflexivity. Qed.

Lemma result_bind_raise {A B : Type} (e : exn) (f : A → result B) :
  (Raise e ≫= f) = Raise e.
Proof. reflexivity. Qed.

Lemma header_length (w h : Z) : length (spec_header w h) = 13%nat.
Proof. reflexivity. Qed.

Lemma bind_lift_ok {A B : Type} (a : A) (k : A → M B) (σ : world) :
  (lift (Ok a) ≫= k) σ = k a σ.
Proof. reflexivity. Qed.

Lemma bind_lift_raise {A B : Type} (e : exn) (k : A → M B) (σ : world) :
  (lift (Raise e) ≫= k) σ = (Raise e, σ).
Proof. reflexivity. Qed.

Lemma create_png_run (size : pyobj) (filename : string) (σ : world) :
  create_png zlib_compress size filename σ
  = match encode zlib_compress size with
    | Raise e => (Raise e, σ)
    | Ok data =>
        if decide (filename ∈ denied σ) then (Raise OSError, σ)
        else (Ok (), after_create σ filename data (created_line filename size))
    end.
Proof.
  destruct size as [s|repr]; [|reflexivity].
  unfold create_png, encode. cbv zeta.
  rewrite raw_data_loop_int, bind_lift_ok. fold (compressed zlib_compress s).
  destruct (decide (0 ≤ s < 2 ^ 32)) as [Hs|Hs].
  2: { rewrite struct_pack_header_range, bind_lift_raise by exact Hs.
       rewrite bool_decide_eq_false_2 by tauto. reflexivity. }
  rewrite struct_pack_header, bind_lift_ok by exact Hs.
  rewrite !crc32_masked.
  rewrite (struct_pack_I 13) by lia.
  rewrite (struct_pack_I (crc32 (tag_IHDR ++ _))) by apply crc32_range.
  rewrite !result_bind_ok, bind_lift_ok.
  destruct (decide (Z.of_nat (length (compressed zlib_compress s)) < 2 ^ 32)) as [Hl|Hl].
  2: { rewrite (struct_pack_I_range (Z.of_nat _)) by lia.
       rewrite result_bind_raise, bind_lift_raise.
       rewrite bool_decide_eq_false_2 by tauto. reflexivity. }
  rewrite (struct_pack_I (Z.of_nat _)) by lia.
  rewrite (struct_pack_I (crc32 (tag_IDAT ++ _))) by apply crc32_range.
  rewrite !result_bind_ok, bind_lift_ok.
  rewrite (struct_pack_I 0) by lia.
  rewrite (struct_pack_I (crc32 _)) by apply crc32_range.
  rewrite !result_bind_ok, bind_lift_ok.
  rewrite bool_decide_eq_true_2 by tauto.
  unfold mbind, M_bind, write_file, print.
  destruct (decide (filename ∈ denied σ)); [reflexivity|].
  unfold after_create, created_line, spec_png, spec_chunk, png_signature.
  cbn [files denied events].
  rewrite header_length, <- !app_assoc, app_nil_r.
  reflexivity.
Qed.

End run.

(** ** Reading back what was written *)

Lemma read_chunks_step (fuel : nat) (bs : bytes) :
  bs ≠ [] →
  read_chunks (S fuel) bs
  = let len := Z.to_nat (be_to_Z (take 4 bs)) in
    if (length bs <? 12 + len)%nat then None
    else
      cs ← read_chunks fuel (drop (12 + len) bs);
      Some (Chunk (take 4 (drop 4 bs)) (take len (drop 8 bs))
              (be_to_Z (take 4 (drop (8 + len) bs))) :: cs).
Proof. destruct bs; [congruence | reflexivity]. Qed.

Lemma read_chunks_cons (fuel : nat) (len tag payload crc rest : bytes) :
  length len = 4%nat → length tag = 4%nat → length crc = 4%nat →
  be_to_Z len = Z.of_nat (length payload) →
  read_chunks (S fuel) (len ++ tag ++ payload ++ crc ++ rest)
  = cs ← read_chunks fuel rest; Some (Chunk tag payload (be_to_Z crc) :: cs).
Proof.
  intros Hlen Htag Hcrc Hval.
  rewrite read_chunks_step
    by (destruct len; [discriminate | discriminate]).
  cbv zeta.
  rewrite (take_app_length' len) by (symmetry; exact Hlen).
  rewrite Hval, Nat2Z.id.
  assert (Hlt : (length (len ++ tag ++ payload ++ crc ++ rest)
                 <? 12 + length payload)%nat = false).
  { apply Nat.ltb_ge. rewrite !length_app. lia. }
  rewrite Hlt.
  assert (H12 : drop (12 + length payload)
                  (len ++ tag ++ payload ++ crc ++ rest) = rest).
  { replace (len ++ tag ++ payload ++ crc ++ rest)
      with ((len ++ tag ++ payload ++ crc) ++ rest)
      by (rewrite <- !app_assoc; reflexivity).
    apply drop_app_length'. rewrite !length_app. lia. }
  assert (H4 : take 4 (drop 4 (len ++ tag ++ payload ++ crc ++ rest)) = tag).
  { rewrite (drop_app_length' len) by (symmetry; exact Hlen).
    apply take_app_length'. symmetry; exact Htag. }
  assert (H8 : take (length payload)
                 (drop 8 (len ++ tag ++ payload ++ crc ++ rest)) = payload).
  { replace (len ++ tag ++ payload ++ crc ++ rest)
      with ((len ++ tag) ++ payload ++ crc ++ rest)
      by (rewrite <- !app_assoc; reflexivity).
    rewrite drop_app_length' by (rewrite length_app; lia).
    apply take_app_length. }
  assert (Hc : take 4 (drop (8 + length payload)
                         (len ++ tag ++ payload ++ crc ++ rest)) = crc).
  { replace (len ++ tag ++ payload ++ crc ++ rest)
      with ((len ++ tag ++ payload) ++ crc ++ rest)
      by (rewrite <- !app_assoc; reflexivity).
    rewrite drop_app_length' by (rewrite !length_app; lia).
    apply take_app_length'. symmetry; exact Hcrc. }
  rewrite H12, H4, H8, Hc. reflexivity.
Qed.

Lemma read_chunks_spec_chunk (fuel : nat) (tag payload rest : bytes) :
  length tag = 4%nat → Z.of_nat (length payload) < 2 ^ 32 →
  read_chunks (S fuel) (spec_chunk tag payload ++ rest)
  = cs ← read_chunks fuel rest;
    Some (Chunk tag payload (crc32 (tag ++ payload)) :: cs).
Proof.
  intros Htag Hlen. unfold spec_chunk. rewrite <- !app_assoc.
  rewrite read_chunks_cons.
  - rewrite be32_roundtrip by apply crc32_range. reflexivity.
  - apply be_bytes_length.
  - exact Htag.
  - apply be_bytes_length.
  - apply be32_roundtrip. lia.
Qed.

(** The three chunks a reader finds in a file laid out as the
    specification says. *)
Lemma read_png_spec (deflate : bytes → Z → bytes) (s : Z) :
  Z.of_nat (length (deflate (spec_raster (Z.to_nat s) (Z.to_nat s)) 9))
    < 2 ^ 32 →
  read_png (spec_png deflate s)
  = Some
      [ Chunk tag_IHDR (spec_header s s)
          (crc32 (tag_IHDR ++ spec_header s s));
        Chunk tag_IDAT (deflate (spec_raster (Z.to_nat s) (Z.to_nat s)) 9)
          (crc32 (tag_IDAT
                    ++ deflate (spec_raster (Z.to_nat s) (Z.to_nat s)) 9));
        Chunk tag_IEND [] (crc32 (tag_IEND ++ [])) ].
Proof.
  intros Hlen. unfold read_png, spec_png.
  rewrite take_app_length' by reflexivity.
  rewrite bool_decide_eq_true_2 by reflexivity.
  rewrite drop_app_length' by reflexivity.
  rewrite length_app. change (length png_signature) with 8%nat.
  cbn [Nat.add].
  rewrite read_chunks_spec_chunk by (rewrite ?header_length; (reflexivity || lia)).
  rewrite read_chunks_spec_chunk by (reflexivity || exact Hlen).
  rewrite <- (app_nil_r (spec_chunk tag_IEND [])).
  rewrite read_chunks_spec_chunk by (reflexivity || (simpl; lia)).
  reflexivity.
Qed.

Lemma read_header_spec (s : Z) :
  0 ≤ s < 2 ^ 32 → read_header (spec_header s s) = Some (s, s).
Proof.
  intros Hs. unfold read_header.
  rewrite bool_decide_eq_true_2 by (split; reflexivity).
  unfold spec_header.
  rewrite take_app_length' by (rewrite be_bytes_length; reflexivity).
  rewrite drop_app_length' by (rewrite be_bytes_length; reflexivity).
  rewrite take_app_length' by (rewrite be_bytes_length; reflexivity).
  rewrite be32_roundtrip by exact Hs. reflexivity.
Qed.

Lemma pixels_length (w : nat) :
  length (concat (replicate w [x7c; x3a; xed; xff])) = (4 * w)%nat.
Proof.
  induction w as [|w IH]; [reflexivity|].
  cbn [replicate concat]. rewrite length_app, IH. simpl. lia.
Qed.

Lemma read_pixels_uniform (w : nat) :
  read_pixels w (concat (replicate w [x7c; x3a; xed; xff]))
  = Some (replicate w color).
Proof.
  induction w as [|w IH]; [reflexivity|].
  cbn [replicate concat app read_pixels]. rewrite IH. reflexivity.
Qed.

Lemma read_scanlines_raster (w h : nat) :
  read_scanlines w h (spec_raster w h) = Some (replicate h (replicate w color)).
Proof.
  unfold spec_raster. induction h as [|h IH]; [reflexivity|].
  cbn [replicate concat]. unfold spec_scanline at 1.
  cbn [app read_scanlines].
  rewrite take_app_length' by (rewrite pixels_length; reflexivity).
  rewrite drop_app_length' by (rewrite pixels_length; reflexivity).
  rewrite read_pixels_uniform, IH. reflexivity.
Qed.

Lemma crc_ok_fresh (tag payload : bytes) :
  crc_ok (Chunk tag payload (crc32 (tag ++ payload))) = true.
Proof. unfold crc_ok. apply bool_decide_eq_true_2. reflexivity. Qed.

Lemma decode_png_spec (deflate : bytes → Z → bytes)
    (inflate : bytes → option bytes) (s : Z) :
  0 ≤ s < 2 ^ 32 →
  Z.of_nat (length (deflate (spec_raster (Z.to_nat s) (Z.to_nat s)) 9))
    < 2 ^ 32 →
  inflate (deflate (spec_raster (Z.to_nat s) (Z.to_nat s)) 9)
    = Some (spec_raster (Z.to_nat s) (Z.to_nat s)) →
  decode_png inflate (spec_png deflate s)
  = Some (Image s s (replicate (Z.to_nat s) (replicate (Z.to_nat s) color))).
Proof.
  intros Hs Hlen Hinf. unfold decode_png.
  rewrite read_png_spec by exact Hlen.
  cbn [mbind option_bind forallb]. rewrite !crc_ok_fresh.
  cbn [andb chunk_type chunk_data].
  rewrite bool_decide_eq_true_2 by (repeat split; reflexivity).
  rewrite read_header_spec by exact Hs.
  cbn [mbind option_bind]. rewrite Hinf.
  cbn [mbind option_bind]. rewrite read_scanlines_raster. reflexivity.
Qed.

(** ** The storing codec is a codec *)

Lemma block_max_Z : Z.of_nat block_max = 65535.
Proof. unfold block_max. lia. Qed.

Lemma le16_decode (v : Z) :
  0 ≤ v < 65536 →
  byte_to_Z (byte_of_Z v) + 256 * byte_to_Z (byte_of_Z (Z.shiftr v 8)) = v.
Proof.
  intros Hv. rewrite !byte_to_of_Z, Z.shiftr_div_pow2 by lia.
  change (2 ^ 8) with 256.
  rewrite (Z.mod_small (v / 256)).
  - pose proof (Z.div_mod v 256). lia.
  - split; [apply Z.div_pos; lia | apply Z.div_lt_upper_bound; lia].
Qed.

Lemma adler32_range (data : bytes) : 0 ≤ adler32 data < 2 ^ 32.
Proof.
  unfold adler32.
  assert (H : ∀ s1 s2, 0 ≤ s1 < 65521 → 0 ≤ s2 < 65521 →
            let '(a, b) :=
              fold_left (λ '(s1, s2) x,
                let s1' := (s1 + byte_to_Z x) mod 65521 in
                (s1', (s2 + s1') mod 65521)) data (s1, s2) in
            0 ≤ a < 65521 ∧ 0 ≤ b < 65521).
  { induction data as [|x data IH]; intros s1 s2 H1 H2; cbn [fold_left].
    - split; assumption.
    - apply IH; apply Z.mod_pos_bound; lia. }
  specialize (H 1 0 ltac:(lia) ltac:(lia)).
  destruct (fold_left _ data (1, 0)) as [a b]. lia.
Qed.

Lemma stored_blocks_length (fuel : nat) (data : bytes) :
  (length data < fuel)%nat →
  Z.of_nat (length data) + 5 ≤ Z.of_nat (length (stored_blocks fuel data))
  ∧ Z.of_nat (length (stored_blocks fuel data))
    ≤ Z.of_nat (length data) + 5 + 5 * (Z.of_nat (length data) / 65535).
Proof.
  revert data. induction fuel as [|fuel IH]; intros data Hf; [lia|].
  cbn [stored_blocks].
  destruct (length data <=? block_max)%nat eqn:E.
  - cbn [length]. rewrite !length_app. cbn [le16 length].
    assert (0 ≤ Z.of_nat (length data) / 65535) by (apply Z.div_pos; lia).
    lia.
  - apply Nat.leb_gt in E. pose proof block_max_Z as Hb.
    cbn [length]. rewrite !length_app. cbn [le16 length].
    rewrite length_take.
    destruct (IH (drop block_max data)) as [Hlo Hhi];
      [rewrite length_drop; lia|].
    rewrite length_drop in Hlo, Hhi.
    replace (Z.of_nat (length data) / 65535)
      with (1 + Z.of_nat (length data - block_max) / 65535).
    + lia.
    + replace (Z.of_nat (length data))
        with (Z.of_nat (length data - block_max) + 1 * 65535) by lia.
      rewrite Z.div_add by lia. lia.
Qed.

Lemma inflate_stored_blocks (fuel : nat) :
  ∀ (data tl : bytes) (fuel' : nat),
    (length data < fuel)%nat → (fuel ≤ fuel')%nat →
    inflate_stored fuel' (stored_blocks fuel data ++ tl) = Some (data, tl).
Proof.
  induction fuel as [|fuel IH]; intros data tl fuel' Hf Hg; [lia|].
  destruct fuel' as [|fuel']; [lia|].
  pose proof block_max_Z as Hb.
  cbn [stored_blocks].
  destruct (length data <=? block_max)%nat eqn:E.
  - apply Nat.leb_le in E.
    cbn [le16 app inflate_stored].
    rewrite !le16_decode by lia.
    rewrite bool_decide_eq_true_2
      by (split; [lia | rewrite length_app; lia]).
    rewrite bool_decide_eq_true_2 by reflexivity.
    rewrite Nat2Z.id, take_app_length, drop_app_length. reflexivity.
  - apply Nat.leb_gt in E.
    cbn [le16 app inflate_stored].
    rewrite !le16_decode by lia.
    change (Z.to_nat 65535) with block_max.
    assert (Hlen : length (take block_max data) = block_max)
      by (rewrite length_take; lia).
    rewrite bool_decide_eq_true_2
      by (split; [lia | rewrite !length_app, Hlen; lia]).
    rewrite bool_decide_eq_false_2 by discriminate.
    rewrite bool_decide_eq_true_2 by reflexivity.
    rewrite <- app_assoc.
    rewrite drop_app_length', take_app_length' by (symmetry; exact Hlen).
    rewrite IH by (rewrite ?length_drop; lia).
    cbn [mbind option_bind]. rewrite take_drop. reflexivity.
Qed.

Lemma stored_roundtrip (data : bytes) (level : Z) :
  stored_decompress (stored_compress data level) = Some data.
Proof.
  unfold stored_compress, stored_decompress. cbn [app].
  rewrite bool_decide_eq_true_2 by (repeat split; reflexivity).
  rewrite inflate_stored_blocks.
  - cbn [mbind option_bind].
    rewrite bool_decide_eq_true_2; [reflexivity|].
    split; [apply be_bytes_length|].
    apply be32_roundtrip, adler32_range.
  - lia.
  - rewrite length_app.
    pose proof (stored_blocks_length (S (length data)) data ltac:(lia)). lia.
Qed.

Lemma stored_bound (data : bytes) (level : Z) :
  Z.of_nat (length (stored_compress data level))
  ≤ compressBound (Z.of_nat (length data)).
Proof.
  unfold stored_compress, compressBound.
  rewrite !length_app, be_bytes_length. cbn [length].
  pose proof (stored_blocks_length (S (length data)) data ltac:(lia))
    as [_ Hhi].
  set (n := Z.of_nat (length data)) in *.
  assert (Hn : 0 ≤ n) by (unfold n; lia).
  rewrite !Z.shiftr_div_pow2 by lia.
  assert (H12 : 15 * (n / 65535) ≤ n / 2 ^ 12).
  { apply Z.div_le_lower_bound; [lia|].
    pose proof (Z.mul_div_le n 65535 ltac:(lia)). lia. }
  assert (H14 : 0 ≤ n / 2 ^ 14) by (apply Z.div_pos; lia).
  assert (H25 : 0 ≤ n / 2 ^ 25) by (apply Z.div_pos; lia).
  assert (Hq : 0 ≤ n / 65535) by (apply Z.div_pos; lia).
  lia.
Qed.

(** ** Outcomes of [create_png] *)

Section outcomes.

Variable zlib_compress : bytes → Z → bytes.

Lemma raster_length_Z (s : Z) :
  0 ≤ s →
  Z.of_nat (length (spec_raster (Z.to_nat s) (Z.to_nat s))) = s * (1 + 4 * s).
Proof.
  intros Hs. rewrite raster_length.
  rewrite Nat2Z.inj_mul, Nat2Z.inj_add, Nat2Z.inj_mul, Z2Nat.id by exact Hs.
  reflexivity.
Qed.

Lemma create_png_ok (s : Z) (filename : string) (σ : world) :
  0 ≤ s < 2 ^ 32 →
  Z.of_nat (length (compressed zlib_compress s)) < 2 ^ 32 →
  filename ∉ denied σ →
  create_png zlib_compress (PyInt s) filename σ
  = (Ok (), after_create σ filename (spec_png zlib_compress s)
              (created_line filename (PyInt s))).
Proof.
  intros Hs Hl Hd. rewrite create_png_run. unfold encode.
  rewrite bool_decide_eq_true_2 by tauto.
  destruct (decide (filename ∈ denied σ)); [contradiction | reflexivity].
Qed.

Lemma create_png_struct_error (s : Z) (filename : string) (σ : world) :
  ¬ (0 ≤ s < 2 ^ 32) →
  create_png zlib_compress (PyInt s) filename σ = (Raise StructError, σ).
Proof.
  intros Hs. rewrite create_png_run. unfold encode.
  rewrite bool_decide_eq_false_2 by tauto. reflexivity.
Qed.

Lemma create_png_type_error (repr filename : string) (σ : world) :
  create_png zlib_compress (PyOther repr) filename σ = (Raise TypeError, σ).
Proof. rewrite create_png_run. reflexivity. Qed.

(** A call that returns has written the file. *)
Lemma create_png_returns (size : pyobj) (filename : string) (σ σ' : world) :
  create_png zlib_compress size filename σ = (Ok (), σ') →
  ∃ s, size = PyInt s ∧ (0 ≤ s < 2 ^ 32)
       ∧ Z.of_nat (length (compressed zlib_compress s)) < 2 ^ 32
       ∧ (filename ∉ denied σ)
       ∧ σ' = after_create σ filename (spec_png zlib_compress s)
                (created_line filename size).
Proof.
  rewrite create_png_run. destruct size as [s|repr]; cbn [encode].
  - destruct (bool_decide _) eqn:E; [|discriminate].
    apply bool_decide_eq_true_1 in E.
    destruct (decide (filename ∈ denied σ)); [discriminate|].
    intros [= <-]. exists s. tauto.
  - discriminate.
Qed.

End outcomes.

(** * Main results *)

Section claims.

(** [zlib.compress(data, level)] and, for the reading side,
    [zlib.decompress(data)], which fails on a stream that is not valid. *)
Variable zlib_compress : bytes → Z → bytes.
Variable zlib_decompress : bytes → option bytes.

(** zlib is lossless: decompressing what [compress] returned gives the
    input back. *)
Hypothesis decompress_compress :
  ∀ data level, zlib_decompress (zlib_compress data level) = Some data.

(** [compress] stays within [compressBound]. *)
Hypothesis compress_bound :
  ∀ data level,
    Z.of_nat (length (zlib_compress data level))
    ≤ compressBound (Z.of_nat (length data)).

Lemma compressBound_mono (n m : Z) :
  0 ≤ n ≤ m → compressBound n ≤ compressBound m.
Proof using Type.
  intros H. unfold compressBound.
  rewrite !Z.shiftr_div_pow2 by lia.
  pose proof (Z.div_le_mono n m (2 ^ 12) ltac:(lia) ltac:(lia)).
  pose proof (Z.div_le_mono n m (2 ^ 14) ltac:(lia) ltac:(lia)).
  pose proof (Z.div_le_mono n m (2 ^ 25) ltac:(lia) ltac:(lia)).
  lia.
Qed.

(** Up to 32000 pixels a side the compressed stream fits the 32-bit length
    field of the data chunk. *)
Lemma compressed_fits (s : Z) :
  0 ≤ s ≤ 32000 →
  Z.of_nat (length (compressed zlib_compress s)) < 2 ^ 32.
Proof using compress_bound.
  intros Hs. unfold compressed.
  eapply Z.le_lt_trans; [apply compress_bound|].
  rewrite raster_length_Z by lia.
  eapply Z.le_lt_trans;
    [apply (compressBound_mono _ (32000 * (1 + 4 * 32000))); nia|].
  reflexivity.
Qed.

(** C9: for a negative [size] the loops build nothing, packing the header
    raises [struct.error], and the call ends there: nothing is written or
    printed and the world is unchanged. *)
Theorem negative_size_raises (s : Z) (filename : string) (σ : world) :
  s < 0 →
  raw_data_loop (PyInt s) (PyInt s) 124 58 237 255 = Ok []
  ∧ struct_pack [fmt_I; fmt_I; fmt_B; fmt_B; fmt_B; fmt_B; fmt_B]
      [PyInt s; PyInt s; PyInt 8; PyInt 6; PyInt 0; PyInt 0; PyInt 0]
    = Raise StructError
  ∧ create_png zlib_compress (PyInt s) filename σ = (Raise StructError, σ).
Proof using Type.
  intros Hs. split; [|split].
  - rewrite raw_data_loop_int. replace (Z.to_nat s) with 0%nat by lia.
    reflexivity.
  - apply struct_pack_header_range. lia.
  - apply create_png_struct_error. lia.
Qed.

(** C10: for [size = 0] the raster is empty and the call returns, having
    written signature, a header chunk declaring 0 x 0, a data chunk holding
    the compression of the empty string, and the end chunk. *)
Theorem size_zero_file (filename : string) (σ : world) :
  filename ∉ denied σ →
  raw_data_loop (PyInt 0) (PyInt 0) 124 58 237 255 = Ok []
  ∧ create_png zlib_compress (PyInt 0) filename σ
    = (Ok (),
       after_create σ filename
         (png_signature
            ++ spec_chunk tag_IHDR (spec_header 0 0)
            ++ spec_chunk tag_IDAT (zlib_compress [] 9)
            ++ spec_chunk tag_IEND [])
         ("Created " +:+ filename +:+ " (0x0)"))
  ∧ read_header (spec_header 0 0) = Some (0, 0).
Proof using compress_bound.
  intros Hd. split; [reflexivity|]. split; [|reflexivity].
  rewrite create_png_ok; [reflexivity | lia | | exact Hd].
  apply compressed_fits. lia.
Qed.

(** C5, as amended: a negative [size] raises [struct.error] and a [size]
    that is not an integer raises [TypeError]; either way no file is
    written and nothing is printed. *)
Theorem invalid_size_raises (size : pyobj) (filename : string) (σ : world) :
  match size with PyInt s => s < 0 | PyOther _ => True end →
  create_png zlib_compress size filename σ
  = (Raise match size with PyInt _ => StructError | PyOther _ => TypeError end,
     σ).
Proof using Type.
  destruct size as [s|repr]; intros H.
  - apply create_png_struct_error. lia.
  - apply create_png_type_error.
Qed.

(** C2, as amended: for a [size] between 1 and 2^32 - 1 the header payload
    packed by [create_png] is 13 bytes: width and height as 4-byte
    big-endian fields, then 8, 6, 0, 0, 0; and where the compressed stream is
    shorter than 2^32 bytes and the file can be opened, the header chunk of
    the file written reads back as width [size] and height [size]. *)
Theorem header_fields (s : Z) :
  0 < s < 2 ^ 32 →
  struct_pack [fmt_I; fmt_I; fmt_B; fmt_B; fmt_B; fmt_B; fmt_B]
    [PyInt s; PyInt s; PyInt 8; PyInt 6; PyInt 0; PyInt 0; PyInt 0]
  = Ok (be_bytes 4 s ++ be_bytes 4 s ++ [x08; x06; x00; x00; x00])
  ∧ length (be_bytes 4 s ++ be_bytes 4 s ++ [x08; x06; x00; x00; x00])
    = 13%nat
  ∧ be_to_Z (be_bytes 4 s) = s
  ∧ ∀ (filename : string) (σ : world),
      Z.of_nat (length (compressed zlib_compress s)) < 2 ^ 32 →
      filename ∉ denied σ →
      ∃ σ' data crc rest,
        create_png zlib_compress (PyInt s) filename σ = (Ok (), σ')
        ∧ files σ' !! filename = Some data
        ∧ read_png data
          = Some (Chunk tag_IHDR
                    (be_bytes 4 s ++ be_bytes 4 s ++ [x08; x06; x00; x00; x00])
                    crc :: rest)
        ∧ read_header
            (be_bytes 4 s ++ be_bytes 4 s ++ [x08; x06; x00; x00; x00])
          = Some (s, s).
Proof using Type.
  intros Hs. split; [|split; [|split]].
  - apply (struct_pack_header s). lia.
  - apply (header_length s s).
  - apply be32_roundtrip. lia.
  - intros filename σ Hl Hd.
    eexists _, _, _, _. split; [apply create_png_ok; [lia | exact Hl | exact Hd]|].
    split; [apply lookup_insert_eq|].
    split; [apply read_png_spec; exact Hl|].
    apply (read_header_spec s). lia.
Qed.

(** C3, as amended: for a [size] between 1 and 2^32 - 1 whose compressed
    stream is shorter than 2^32 bytes, and a file that can be opened,
    [create_png] writes the 8-byte signature followed by the chunks IHDR,
    IDAT and IEND, each laid out as length, tag, payload, checksum, with
    length fields 13, the length of the compressed stream, and 0. *)
Theorem file_layout (s : Z) (filename : string) (σ : world) :
  0 < s < 2 ^ 32 →
  Z.of_nat (length (compressed zlib_compress s)) < 2 ^ 32 →
  filename ∉ denied σ →
  ∃ σ' data,
    create_png zlib_compress (PyInt s) filename σ = (Ok (), σ')
    ∧ files σ' !! filename = Some data
    ∧ data = png_signature
               ++ spec_chunk tag_IHDR (spec_header s s)
               ++ spec_chunk tag_IDAT (compressed zlib_compress s)
               ++ spec_chunk tag_IEND []
    ∧ take 4 (spec_chunk tag_IHDR (spec_header s s)) = be_bytes 4 13
    ∧ take 4 (spec_chunk tag_IDAT (compressed zlib_compress s))
      = be_bytes 4 (Z.of_nat (length (compressed zlib_compress s)))
    ∧ take 4 (spec_chunk tag_IEND []) = be_bytes 4 0
    ∧ read_png data
      = Some [ Chunk tag_IHDR (spec_header s s)
                 (crc32 (tag_IHDR ++ spec_header s s));
               Chunk tag_IDAT (compressed zlib_compress s)
                 (crc32 (tag_IDAT ++ compressed zlib_compress s));
               Chunk tag_IEND [] (crc32 (tag_IEND ++ [])) ].
Proof using Type.
  intros Hs Hl Hd.
  eexists _, _. split; [apply create_png_ok; [lia | exact Hl | exact Hd]|].
  split; [apply lookup_insert_eq|].
  split; [reflexivity|].
  split; [reflexivity|].
  split; [unfold spec_chunk; apply take_app_length'; reflexivity|].
  split; [reflexivity|].
  apply read_png_spec. exact Hl.
Qed.

(** C4: for a positive [size], whatever file a call of [create_png] has
    written consists of the chunks IHDR, IDAT, IEND, and the checksum stored
    in each equals the CRC-32 recomputed over its tag and payload; such a
    file is written whenever [size] and the compressed length fit 32 bits
    and the file can be opened. *)
Theorem chunk_checksums (s : Z) (filename : string) (σ : world) :
  0 < s →
  (∀ σ', create_png zlib_compress (PyInt s) filename σ = (Ok (), σ') →
     ∃ data cs,
       files σ' !! filename = Some data
       ∧ read_png data = Some cs
       ∧ chunk_type <$> cs = [tag_IHDR; tag_IDAT; tag_IEND]
       ∧ Forall (λ c, chunk_crc c = crc32 (chunk_type c ++ chunk_data c)) cs
       ∧ forallb crc_ok cs = true)
  ∧ (s < 2 ^ 32 →
     Z.of_nat (length (compressed zlib_compress s)) < 2 ^ 32 →
     filename ∉ denied σ →
     ∃ σ', create_png zlib_compress (PyInt s) filename σ = (Ok (), σ')).
Proof using Type.
  intros Hs. split.
  - intros σ' Hrun.
    apply create_png_returns in Hrun
      as (s' & [= <-] & Hr & Hl & Hd & ->).
    eexists _, _. split; [apply lookup_insert_eq|].
    split; [apply read_png_spec; exact Hl|].
    split; [reflexivity|].
    split; [repeat constructor|].
    cbn [forallb]. rewrite !crc_ok_fresh. reflexivity.
  - intros Hr Hl Hd. eexists. apply create_png_ok; [lia | exact Hl | exact Hd].
Qed.

(** C1: for a positive [size] the loops of [create_png] build the raster
    of [size] scanlines, each a zero filter byte and [size] times the bytes
    124, 58, 237, 255; it is [size * (1 + 4 * size)] bytes long;
    decompressing its compression gives it back, and it reads as [size] rows
    of [size] pixels of the colour; and whatever file a call has written
    holds that compression as the payload of its data chunk and decodes to
    the [size] x [size] image of the colour. *)
Theorem raster_roundtrip (s : Z) :
  0 < s →
  raw_data_loop (PyInt s) (PyInt s) 124 58 237 255
  = Ok (spec_raster (Z.to_nat s) (Z.to_nat s))
  ∧ Z.of_nat (length (spec_raster (Z.to_nat s) (Z.to_nat s)))
    = s * (1 + 4 * s)
  ∧ zlib_decompress (zlib_compress (spec_raster (Z.to_nat s) (Z.to_nat s)) 9)
    = Some (spec_raster (Z.to_nat s) (Z.to_nat s))
  ∧ read_scanlines (Z.to_nat s) (Z.to_nat s)
      (spec_raster (Z.to_nat s) (Z.to_nat s))
    = Some (replicate (Z.to_nat s) (replicate (Z.to_nat s) color))
  ∧ (∀ (filename : string) (σ σ' : world),
       create_png zlib_compress (PyInt s) filename σ = (Ok (), σ') →
       ∃ data ihdr crc iend,
         files σ' !! filename = Some data
         ∧ read_png data
           = Some [ ihdr;
                    Chunk tag_IDAT
                      (zlib_compress
                         (spec_raster (Z.to_nat s) (Z.to_nat s)) 9) crc;
                    iend ]
         ∧ decode_png zlib_decompress data
           = Some (Image s s
                     (replicate (Z.to_nat s) (replicate (Z.to_nat s) color))))
  ∧ (∀ (filename : string) (σ : world),
       s < 2 ^ 32 →
       Z.of_nat (length (compressed zlib_compress s)) < 2 ^ 32 →
       filename ∉ denied σ →
       ∃ σ', create_png zlib_compress (PyInt s) filename σ = (Ok (), σ')).
Proof using decompress_compress.
  intros Hs. split; [apply raw_data_loop_int|].
  split; [apply raster_length_Z; lia|].
  split; [apply decompress_compress|].
  split; [apply read_scanlines_raster|].
  split.
  - intros filename σ σ' Hrun.
    apply create_png_returns in Hrun
      as (s' & [= <-] & Hr & Hl & Hd & ->).
    eexists _, _, _, _. split; [apply lookup_insert_eq|].
    split; [apply read_png_spec; exact Hl|].
    apply decode_png_spec; [exact Hr | exact Hl | apply decompress_compress].
  - intros filename σ Hr Hl Hd.
    eexists. apply create_png_ok; [lia | exact Hl | exact Hd].
Qed.


(** C7, as amended: the bytes are a function of [size] alone, but the call
    is not free of effects: a call that returns has written those bytes to
    [filename] and then printed one line, and has touched no other file.
    (Nothing is said here of a call that raises.) *)
Theorem create_png_effects (size : pyobj) (filename : string) (σ σ' : world) :
  create_png zlib_compress size filename σ = (Ok (), σ') →
  ∃ data,
    encode zlib_compress size = Ok data
    ∧ σ' = {| files := <[filename := data]> (files σ);
              denied := denied σ;
              events := events σ
                        ++ [EvWrite filename data;
                            EvPrint (created_line filename size)] |}
    ∧ (∀ other : string,
         other ≠ filename → files σ' !! other = files σ !! other)
    ∧ (∀ (filename2 : string) (σ2 σ2' : world),
         create_png zlib_compress size filename2 σ2 = (Ok (), σ2') →
         files σ2' !! filename2 = Some data).
Proof using Type.
  intros Hrun.
  apply create_png_returns in Hrun as (s & -> & Hs & Hl & Hd & ->).
  exists (spec_png zlib_compress s).
  split; [cbn [encode]; rewrite bool_decide_eq_true_2 by tauto; reflexivity|].
  split; [reflexivity|].
  split.
  - intros other Hne. cbn [files after_create].
    apply lookup_insert_ne. congruence.
  - intros filename2 σ2 σ2' Hrun2.
    apply create_png_returns in Hrun2 as (s2 & [= <-] & _ & _ & _ & ->).
    apply lookup_insert_eq.
Qed.

Lemma bind_ok {A B : Type} (m : M A) (k : A → M B) (σ σ' : world) (a : A) :
  m σ = (Ok a, σ') → (m ≫= k) σ = k a σ'.
Proof using Type.
  intros H. unfold mbind, M_bind. rewrite H. reflexivity.
Qed.

(** C8: started where the four files can be opened, the script makes, in
    this order and nothing else, four writes each followed by its printed
    line, for (32, 32x32.png), (128, 128x128.png), (256, 128x128@2x.png),
    (512, icon.png), then prints the closing line and returns; each file
    holds the image of its size in the colour (124, 58, 237, 255). *)
Theorem main_run (σ : world) :
  "32x32.png" ∉ denied σ →
  "128x128.png" ∉ denied σ →
  "128x128@2x.png" ∉ denied σ →
  "icon.png" ∉ denied σ →
  ∃ σ',
    main zlib_compress σ = (Ok (), σ')
    ∧ events σ'
      = events σ
          ++ [ EvWrite "32x32.png" (spec_png zlib_compress 32);
               EvPrint "Created 32x32.png (32x32)";
               EvWrite "128x128.png" (spec_png zlib_compress 128);
               EvPrint "Created 128x128.png (128x128)";
               EvWrite "128x128@2x.png" (spec_png zlib_compress 256);
               EvPrint "Created 128x128@2x.png (256x256)";
               EvWrite "icon.png" (spec_png zlib_compress 512);
               EvPrint "Created icon.png (512x512)";
               EvPrint "Icons created successfully!" ]
    ∧ files σ'
      = <["icon.png" := spec_png zlib_compress 512]>
          (<["128x128@2x.png" := spec_png zlib_compress 256]>
             (<["128x128.png" := spec_png zlib_compress 128]>
                (<["32x32.png" := spec_png zlib_compress 32]> (files σ))))
    ∧ denied σ' = denied σ
    ∧ Forall (λ s,
        decode_png zlib_decompress (spec_png zlib_compress s)
        = Some (Image s s
                  (replicate (Z.to_nat s) (replicate (Z.to_nat s) color))))
        (fst <$> sizes).
Proof using decompress_compress compress_bound.
  intros H32 H128 H256 H512.
  assert (Hfit : ∀ s, 0 ≤ s ≤ 512 →
            Z.of_nat (length (compressed zlib_compress s)) < 2 ^ 32)
    by (intros s Hs; apply compressed_fits; lia).
  eexists. split; [|split; [|split; [|split]]].
  - unfold main, sizes.
    erewrite bind_ok; [reflexivity|].
    cbn [for_each].
    erewrite bind_ok;
      [|apply create_png_ok; [lia | apply Hfit; lia | exact H32]].
    erewrite bind_ok;
      [|apply create_png_ok; [lia | apply Hfit; lia | exact H128]].
    erewrite bind_ok;
      [|apply create_png_ok; [lia | apply Hfit; lia | exact H256]].
    erewrite bind_ok;
      [|apply create_png_ok; [lia | apply Hfit; lia | exact H512]].
    reflexivity.
  - cbn [events print after_create]. rewrite <- !app_assoc. reflexivity.
  - reflexivity.
  - reflexivity.
  - unfold sizes. cbn [fmap list_fmap fst].
    repeat constructor;
      (apply decode_png_spec;
       [lia | apply Hfit; lia | apply decompress_compress]).
Qed.

End claims.

(** * The results at concrete sizes, with the storing codec *)

Lemma empty_world_open (filename : string) : filename ∉ denied empty_world.
Proof. apply not_elem_of_empty. Qed.

Lemma stored_fits (s : Z) :
  0 ≤ s ≤ 32000 → Z.of_nat (length (compressed stored_compress s)) < 2 ^ 32.
Proof. apply compressed_fits, stored_bound. Qed.

(** C9 at size -1. *)
Lemma negative_size_raises_witness :
  -1 < 0
  ∧ create_png stored_compress (PyInt (-1)) "icon.png" empty_world
    = (Raise StructError, empty_world).
Proof.
  split; [lia|].
  apply (negative_size_raises stored_compress (-1) "icon.png" empty_world).
  lia.
Defined.

(** C10 with the storing codec. *)
Lemma size_zero_file_witness :
  create_png stored_compress (PyInt 0) "icon.png" empty_world
  = (Ok (),
     after_create empty_world "icon.png"
       (png_signature
          ++ spec_chunk tag_IHDR (spec_header 0 0)
          ++ spec_chunk tag_IDAT (stored_compress [] 9)
          ++ spec_chunk tag_IEND [])
       "Created icon.png (0x0)").
Proof.
  apply (size_zero_file stored_compress stored_bound "icon.png" empty_world).
  apply empty_world_open.
Defined.

(** C5, as amended, at a float. *)
Lemma invalid_size_raises_witness :
  create_png stored_compress (PyOther "2.5") "icon.png" empty_world
  = (Raise TypeError, empty_world).
Proof.
  apply (invalid_size_raises stored_compress (PyOther "2.5")
           "icon.png" empty_world).
  exact I.
Defined.

(** C5 fails at size 0: the call returns and the file is there. *)
Lemma size_zero_accepted :
  create_png stored_compress (PyInt 0) "icon.png" empty_world
  = (Ok (),
     {| files := <["icon.png" := spec_png stored_compress 0]> ∅;
        denied := ∅;
        events := [ EvWrite "icon.png" (spec_png stored_compress 0);
                    EvPrint "Created icon.png (0x0)" ] |}).
Proof.
  rewrite create_png_ok; [reflexivity | lia | apply stored_fits; lia |].
  apply empty_world_open.
Qed.

(** C2, as amended, at size 2. *)
Lemma header_fields_witness :
  0 < 2 < 2 ^ 32
  ∧ struct_pack [fmt_I; fmt_I; fmt_B; fmt_B; fmt_B; fmt_B; fmt_B]
      [PyInt 2; PyInt 2; PyInt 8; PyInt 6; PyInt 0; PyInt 0; PyInt 0]
    = Ok [x00; x00; x00; x02; x00; x00; x00; x02; x08; x06; x00; x00; x00].
Proof.
  split; [lia|].
  apply (header_fields stored_compress 2). lia.
Defined.

(** C2 fails at size 2^32: packing the header raises and no file is
    written. *)
Lemma header_overflow :
  struct_pack [fmt_I; fmt_I; fmt_B; fmt_B; fmt_B; fmt_B; fmt_B]
    [PyInt 4294967296; PyInt 4294967296;
     PyInt 8; PyInt 6; PyInt 0; PyInt 0; PyInt 0]
  = Raise StructError
  ∧ create_png stored_compress (PyInt 4294967296) "icon.png" empty_world
    = (Raise StructError, empty_world).
Proof.
  split.
  - apply struct_pack_header_range. lia.
  - apply create_png_struct_error. lia.
Qed.

(** C3, as amended, at size 2. *)
Lemma file_layout_witness :
  ∃ σ',
    create_png stored_compress (PyInt 2) "icon.png" empty_world = (Ok (), σ')
    ∧ files σ' !! "icon.png"
      = Some (png_signature
                ++ spec_chunk tag_IHDR (spec_header 2 2)
                ++ spec_chunk tag_IDAT (compressed stored_compress 2)
                ++ spec_chunk tag_IEND []).
Proof.
  destruct (file_layout stored_compress 2 "icon.png" empty_world)
    as (σ' & data & Hrun & Hfile & -> & _).
  - lia.
  - apply stored_fits. lia.
  - apply empty_world_open.
  - exists σ'. split; assumption.
Defined.

(** C3 fails at size 2^32: the call raises, nothing is written and nothing
    is printed. *)
Lemma file_layout_overflow :
  create_png stored_compress (PyInt 4294967296) "icon.png" empty_world
  = (Raise StructError,
     {| files := ∅; denied := ∅; events := [] |}).
Proof. apply create_png_struct_error. lia. Qed.

(** C4 at size 1. *)
Lemma chunk_checksums_witness :
  0 < 1
  ∧ ∃ σ' data cs,
      create_png stored_compress (PyInt 1) "icon.png" empty_world = (Ok (), σ')
      ∧ files σ' !! "icon.png" = Some data
      ∧ read_png data = Some cs
      ∧ forallb crc_ok cs = true.
Proof.
  split; [lia|].
  destruct (chunk_checksums stored_compress 1 "icon.png" empty_world)
    as [Hany Hrun]; [lia|].
  destruct Hrun as [σ' Hrun];
    [lia | apply stored_fits; lia | apply empty_world_open |].
  destruct (Hany σ' Hrun) as (data & cs & Hfile & Hread & _ & _ & Hcrc).
  exists σ', data, cs. repeat split; assumption.
Defined.

(** C1 at size 2. *)
Lemma raster_roundtrip_witness :
  0 < 2
  ∧ raw_data_loop (PyInt 2) (PyInt 2) 124 58 237 255
    = Ok [x00; x7c; x3a; xed; xff; x7c; x3a; xed; xff;
          x00; x7c; x3a; xed; xff; x7c; x3a; xed; xff]
  ∧ stored_decompress (stored_compress (spec_raster 2 2) 9)
    = Some (spec_raster 2 2).
Proof.
  split; [lia|].
  destruct (raster_roundtrip stored_compress stored_decompress
              stored_roundtrip 2) as (Hraw & _ & Hzip & _); [lia|].
  split; [exact Hraw | exact Hzip].
Defined.

(** C7 fails at size 1: the call writes a file and prints a line. *)
Lemma create_png_not_pure :
  create_png stored_compress (PyInt 1) "icon.png" empty_world
  = (Ok (),
     {| files := <["icon.png" := spec_png stored_compress 1]> ∅;
        denied := ∅;
        events := [ EvWrite "icon.png" (spec_png stored_compress 1);
                    EvPrint "Created icon.png (1x1)" ] |})
  ∧ (create_png stored_compress (PyInt 1) "icon.png" empty_world).2
    ≠ empty_world.
Proof.
  rewrite create_png_ok;
    [| lia | apply stored_fits; lia | apply empty_world_open].
  split; [reflexivity | discriminate].
Qed.

(** C7, as amended, at size 1 in the empty world. *)
Lemma create_png_effects_witness :
  ∃ data,
    encode stored_compress (PyInt 1) = Ok data
    ∧ files (after_create empty_world "icon.png" (spec_png stored_compress 1)
               (created_line "icon.png" (PyInt 1))) !! "other.png"
      = None.
Proof.
  destruct (create_png_effects stored_compress (PyInt 1) "icon.png"
              empty_world
              (after_create empty_world "icon.png"
                 (spec_png stored_compress 1)
                 (created_line "icon.png" (PyInt 1))))
    as (data & Henc & _ & Hother & _).
  - apply create_png_ok.
    + lia.
    + apply stored_fits. lia.
    + apply empty_world_open.
  - exists data. split; [exact Henc|].
    rewrite Hother; [reflexivity | discriminate].
Defined.

(** C8 with the storing codec, started in the empty world. *)
Lemma main_run_witness :
  ∃ σ',
    main stored_compress empty_world = (Ok (), σ')
    ∧ events σ'
      = [ EvWrite "32x32.png" (spec_png stored_compress 32);
          EvPrint "Created 32x32.png (32x32)";
          EvWrite "128x128.png" (spec_png stored_compress 128);
          EvPrint "Created 128x128.png (128x128)";
          EvWrite "128x128@2x.png" (spec_png stored_compress 256);
          EvPrint "Created 128x128@2x.png (256x256)";
          EvWrite "icon.png" (spec_png stored_compress 512);
          EvPrint "Created icon.png (512x512)";
          EvPrint "Icons created successfully!" ].
Proof.
  destruct (main_run stored_compress stored_decompress
              stored_roundtrip stored_bound empty_world)
    as (σ' & Hrun & Hev & _); try apply empty_world_open.
  exists σ'. split; [exact Hrun | exact Hev].
Defined.

(** * Further properties of [create_png] and of the script *)

(** The world after the files of [done] were created one after the other,
    each followed by its printed line. *)
Definition after_all (deflate : bytes → Z → bytes) (done : list (Z * string))
    (σ : world) : world :=
  fold_left (λ σ '(s, name),
    after_create σ name (spec_png deflate s) (created_line name (PyInt s)))
    done σ.

(** The write and the line of each entry of [done], in order. *)
Definition created_events (deflate : bytes → Z → bytes)
    (done : list (Z * string)) : list event :=
  flat_map (λ '(s, name),
    [EvWrite name (spec_png deflate s);
     EvPrint (created_line name (PyInt s))]) done.

(** The closing chunk of every file, checksum AE 42 60 82 included. *)
Definition iend_chunk : bytes :=
  [x00; x00; x00; x00; "I"; "E"; "N"; "D"; xae; x42; x60; x82]%byte.

Section more.

Variable zlib_compress : bytes → Z → bytes.

Hypothesis compress_bound :
  ∀ data level,
    Z.of_nat (length (zlib_compress data level))
    ≤ compressBound (Z.of_nat (length data)).

Lemma after_all_denied (done : list (Z * string)) (σ : world) :
  denied (after_all zlib_compress done σ) = denied σ.
Proof using Type.
  unfold after_all. revert σ.
  induction done as [|[s name] done IH]; intros σ; [reflexivity|].
  cbn [fold_left]. rewrite IH. reflexivity.
Qed.

Lemma after_all_events (done : list (Z * string)) (σ : world) :
  events (after_all zlib_compress done σ)
  = events σ ++ created_events zlib_compress done.
Proof using Type.
  unfold after_all, created_events. revert σ.
  induction done as [|[s name] done IH]; intros σ.
  - cbn. rewrite app_nil_r. reflexivity.
  - cbn [fold_left flat_map]. rewrite IH. cbn [events after_create].
    rewrite <- app_assoc. reflexivity.
Qed.

Lemma after_all_files_other (done : list (Z * string)) (σ : world)
    (other : string) :
  other ∉ (snd <$> done) →
  files (after_all zlib_compress done σ) !! other = files σ !! other.
Proof using Type.
  unfold after_all. revert σ.
  induction done as [|[s name] done IH]; intros σ Hn; [reflexivity|].
  cbn [fold_left]. rewrite fmap_cons in Hn. cbn [snd] in Hn.
  apply not_elem_of_cons in Hn as [Hne Hn].
  rewrite IH by exact Hn. cbn [files after_create].
  apply lookup_insert_ne. congruence.
Qed.

Lemma for_each_created (done : list (Z * string)) (σ : world) :
  Forall (λ p, 0 ≤ p.1 ≤ 32000 ∧ p.2 ∉ denied σ) done →
  for_each done (λ '(size, name), create_png zlib_compress (PyInt size) name) σ
  = (Ok (), after_all zlib_compress done σ).
Proof using compress_bound.
  unfold after_all. revert σ.
  induction done as [|[s name] done IH]; intros σ Hall; [reflexivity|].
  apply Forall_cons in Hall as [[Hs Hd] Hall]. cbn [fst snd] in Hs, Hd.
  cbn [for_each fold_left].
  erewrite bind_ok;
    [|apply create_png_ok;
      [lia | apply compressed_fits; [exact compress_bound | lia] | exact Hd]].
  apply IH. exact Hall.
Qed.

Lemma for_each_app {A : Type} (xs ys : list A) (body : A → M unit)
    (σ : world) :
  for_each (xs ++ ys) body σ = (for_each xs body;; for_each ys body) σ.
Proof using Type.
  revert σ. induction xs as [|x xs IH]; intros σ.
  - reflexivity.
  - cbn [app for_each]. unfold mbind, M_bind.
    destruct (body x σ) as [[[]|e] σ1]; [|reflexivity].
    rewrite IH. reflexivity.
Qed.

Lemma sizes_small : Forall (λ p : Z * string, 0 ≤ p.1 ≤ 32000) sizes.
Proof using Type. unfold sizes. repeat constructor; cbn; lia. Qed.

Lemma sizes_names_distinct : NoDup (snd <$> sizes).
Proof using Type.
  unfold sizes. cbn [fmap list_fmap snd].
  repeat (apply NoDup_cons; split;
          [rewrite ?elem_of_cons, elem_of_nil; intuition discriminate|]).
  apply NoDup_nil_2.
Qed.

Lemma main_returns (σ : world) :
  Forall (λ p : Z * string, p.2 ∉ denied σ) sizes →
  main zlib_compress σ
  = (Ok (),
     {| files := files (after_all zlib_compress sizes σ);
        denied := denied σ;
        events := events σ ++ created_events zlib_compress sizes
                    ++ [EvPrint "Icons created successfully!"] |}).
Proof using compress_bound.
  intros Hall. unfold main.
  erewrite bind_ok.
  2: { apply for_each_created.
       pose proof sizes_small as Hsmall.
       rewrite Forall_forall in Hall, Hsmall. apply Forall_forall.
       intros p Hp. split; [apply Hsmall | apply Hall]; exact Hp. }
  unfold print. rewrite after_all_denied, after_all_events, <- app_assoc.
  reflexivity.
Qed.

(** X1: with a [size] that encodes, a file that cannot be opened makes the
    call raise [OSError]; nothing is written and the line is not printed. *)
Theorem open_failure_raises (s : Z) (filename : string) (σ : world) :
  0 ≤ s < 2 ^ 32 →
  Z.of_nat (length (compressed zlib_compress s)) < 2 ^ 32 →
  filename ∈ denied σ →
  create_png zlib_compress (PyInt s) filename σ = (Raise OSError, σ).
Proof using Type.
  intros Hs Hl Hd. rewrite create_png_run. unfold encode.
  rewrite bool_decide_eq_true_2 by tauto.
  destruct (decide (filename ∈ denied σ)); [reflexivity | contradiction].
Qed.

(** X2: a call returns only when [size] is an integer from 0 to 2^32 - 1,
    the compressed stream is shorter than 2^32 bytes and the file was not
    refused. *)
Theorem create_png_returns_only_if (size : pyobj) (filename : string)
    (σ σ' : world) :
  create_png zlib_compress size filename σ = (Ok (), σ') →
  ∃ s, size = PyInt s ∧ (0 ≤ s < 2 ^ 32)
       ∧ Z.of_nat (length (compressed zlib_compress s)) < 2 ^ 32
       ∧ (filename ∉ denied σ).
Proof using Type.
  intros Hrun.
  apply create_png_returns in Hrun as (s & -> & Hs & Hl & Hd & _).
  exists s. tauto.
Qed.

(** X3: a second call with the same arguments overwrites the file with the
    same bytes: the files are as after the first call, whatever the file
    held before, and the write and the line are logged once more. *)
Theorem create_png_twice (s : Z) (filename : string) (σ : world) :
  0 ≤ s < 2 ^ 32 →
  Z.of_nat (length (compressed zlib_compress s)) < 2 ^ 32 →
  filename ∉ denied σ →
  ∃ σ1 σ2,
    create_png zlib_compress (PyInt s) filename σ = (Ok (), σ1)
    ∧ create_png zlib_compress (PyInt s) filename σ1 = (Ok (), σ2)
    ∧ files σ1 !! filename = Some (spec_png zlib_compress s)
    ∧ files σ2 = files σ1
    ∧ events σ2
      = events σ1 ++ [EvWrite filename (spec_png zlib_compress s);
                      EvPrint (created_line filename (PyInt s))].
Proof using Type.
  intros Hs Hl Hd. eexists _, _.
  split; [apply create_png_ok; assumption|].
  split; [apply create_png_ok; assumption|].
  split; [apply lookup_insert_eq|].
  split; [apply insert_insert_eq | reflexivity].
Qed.

(** X4: after a run of the script each of the four names holds the image of
    its own size, so no file of the run overwrites another, and every other
    path is as before. *)
Theorem main_files (σ : world) :
  Forall (λ p : Z * string, p.2 ∉ denied σ) sizes →
  ∃ σ',
    main zlib_compress σ = (Ok (), σ')
    ∧ (∀ s name, (s, name) ∈ sizes →
         files σ' !! name = Some (spec_png zlib_compress s))
    ∧ (∀ other, other ∉ (snd <$> sizes) →
         files σ' !! other = files σ !! other).
Proof using compress_bound.
  intros Hall. eexists. split; [apply main_returns; exact Hall|].
  cbn [files]. split.
  - intros s name Hin. unfold sizes in Hin.
    unfold after_all, sizes. cbn [fold_left files after_create].
    rewrite !elem_of_cons, elem_of_nil in Hin.
    destruct Hin as [[= -> ->]|[[= -> ->]|[[= -> ->]|[[= -> ->]|[]]]]];
      repeat (rewrite lookup_insert_ne by discriminate);
      apply lookup_insert_eq.
  - intros other Hn. apply after_all_files_other. exact Hn.
Qed.

(** X5: the script stops at the first file that cannot be opened: it raises
    [OSError] after the files before it were written and announced, the
    closing line is not printed, and that file and the later ones are
    untouched. *)
Theorem main_aborts (σ : world) (done rest : list (Z * string))
    (s : Z) (name : string) :
  sizes = done ++ (s, name) :: rest →
  Forall (λ p : Z * string, p.2 ∉ denied σ) done →
  name ∈ denied σ →
  main zlib_compress σ = (Raise OSError, after_all zlib_compress done σ)
  ∧ events (after_all zlib_compress done σ)
    = events σ ++ created_events zlib_compress done
  ∧ ∀ later, later ∈ name :: (snd <$> rest) →
      files (after_all zlib_compress done σ) !! later = files σ !! later.
Proof using compress_bound.
  intros Heq Hdone Hname.
  pose proof sizes_small as Hsmall. pose proof sizes_names_distinct as Hnd.
  rewrite Heq in Hsmall, Hnd.
  apply Forall_app in Hsmall as [Hsd Hsr].
  apply Forall_cons in Hsr as [Hs _]. cbn [fst] in Hs.
  split; [|split].
  - unfold main. rewrite Heq. unfold mbind at 1. unfold M_bind at 1.
    rewrite for_each_app. unfold mbind at 1. unfold M_bind at 1.
    rewrite for_each_created.
    2: { rewrite Forall_forall in Hdone, Hsd. apply Forall_forall.
         intros p Hp. split; [apply Hsd | apply Hdone]; exact Hp. }
    cbn [for_each]. unfold mbind at 1. unfold M_bind at 1.
    rewrite create_png_run. unfold encode.
    rewrite bool_decide_eq_true_2
      by (split; [lia | apply compressed_fits; [exact compress_bound | lia]]).
    rewrite after_all_denied.
    destruct (decide (name ∈ denied σ)); [reflexivity | contradiction].
  - apply after_all_events.
  - intros later Hlater. apply after_all_files_other.
    rewrite fmap_app, fmap_cons in Hnd. cbn [snd] in Hnd.
    apply NoDup_app in Hnd as (_ & Hdisj & _).
    intros Hin. exact (Hdisj later Hin Hlater).
Qed.

(** X6: running the script a second time leaves the files as the first run
    left them. *)
Theorem main_twice (σ : world) :
  Forall (λ p : Z * string, p.2 ∉ denied σ) sizes →
  ∃ σ1 σ2,
    main zlib_compress σ = (Ok (), σ1)
    ∧ main zlib_compress σ1 = (Ok (), σ2)
    ∧ files σ2 = files σ1.
Proof using compress_bound.
  intros Hall. eexists _, _.
  split; [apply main_returns; exact Hall|].
  split; [apply main_returns; exact Hall|].
  cbn [files]. unfold after_all, sizes.
  cbn [fold_left files after_create].
  apply map_eq. intros k.
  rewrite !lookup_insert. repeat case_decide; reflexivity.
Qed.

(** X7: every file a call has written starts with the 8-byte signature,
    ends with the fixed end chunk 00 00 00 00 "IEND" AE 42 60 82, and is 57
    bytes longer than the compressed stream. *)
Theorem output_shape (size : pyobj) (filename : string) (σ σ' : world) :
  create_png zlib_compress size filename σ = (Ok (), σ') →
  ∃ s data,
    size = PyInt s
    ∧ files σ' !! filename = Some data
    ∧ Z.of_nat (length data)
      = 57 + Z.of_nat (length (compressed zlib_compress s))
    ∧ take 8 data = png_signature
    ∧ drop (length data - 12) data = iend_chunk.
Proof using Type.
  intros Hrun.
  apply create_png_returns in Hrun as (s & -> & Hs & Hl & Hd & ->).
  exists s, (spec_png zlib_compress s).
  assert (Hlen : length (spec_png zlib_compress s)
                 = (57 + length (compressed zlib_compress s))%nat).
  { unfold spec_png, spec_chunk. fold (compressed zlib_compress s).
    rewrite !length_app, !be_bytes_length, header_length.
    cbn [length tag_IHDR tag_IDAT tag_IEND png_signature]. lia. }
  split; [reflexivity|].
  split; [apply lookup_insert_eq|].
  split; [rewrite Hlen; lia|].
  split; [reflexivity|].
  rewrite Hlen. unfold spec_png.
  rewrite !app_assoc.
  rewrite drop_app_length'; [reflexivity|].
  rewrite !length_app. unfold spec_chunk. fold (compressed zlib_compress s).
  rewrite !length_app, !be_bytes_length, header_length.
  cbn [length tag_IHDR tag_IDAT png_signature]. lia.
Qed.

End more.

(** X8: the mask [& 0xffffffff] never changes a checksum: [zlib.crc32]
    lies between 0 and 2^32 - 1, so packing it as a 32-bit field cannot
    raise, and the four bytes read back as the checksum. *)
Theorem crc_mask_identity (data : bytes) :
  Z.land (crc32 data) 0xffffffff = crc32 data
  ∧ ∃ field,
      struct_pack [fmt_I] [PyInt (Z.land (crc32 data) 0xffffffff)] = Ok field
      ∧ length field = 4%nat
      ∧ be_to_Z field = crc32 data.
Proof.
  pose proof (crc32_range data) as Hr.
  assert (Hm : Z.land (crc32 data) 0xffffffff = crc32 data).
  { change 0xffffffff with (Z.ones 32). rewrite Z.land_ones by lia.
    apply Z.mod_small. exact Hr. }
  split; [exact Hm|]. rewrite Hm.
  exists (be_bytes 4 (crc32 data)).
  split; [apply struct_pack_I; exact Hr|].
  split; [apply be_bytes_length | apply be32_roundtrip; exact Hr].
Qed.

(** ** The further properties at concrete inputs, with the storing codec *)

Lemma empty_world_all_open :
  Forall (λ p : Z * string, p.2 ∉ denied empty_world) sizes.
Proof. apply Forall_forall. intros p _. apply empty_world_open. Qed.

Lemma only_refused (name : string) : name ∈ denied (World ∅ {[name]} []).
Proof. cbn [denied]. set_solver. Qed.

Lemma others_open (name other : string) :
  other ≠ name → other ∉ denied (World ∅ {[name]} []).
Proof. cbn [denied]. set_solver. Qed.

(** X1 at size 1, with icon.png refused. *)
Lemma open_failure_raises_witness :
  create_png stored_compress (PyInt 1) "icon.png"
    (World ∅ {["icon.png"]} [])
  = (Raise OSError, World ∅ {["icon.png"]} []).
Proof.
  apply (open_failure_raises stored_compress 1 "icon.png"
           (World ∅ {["icon.png"]} [])).
  - lia.
  - apply stored_fits. lia.
  - apply only_refused.
Defined.

(** X3 at size 1 in the empty world. *)
Lemma create_png_twice_witness :
  ∃ σ1 σ2,
    create_png stored_compress (PyInt 1) "icon.png" empty_world = (Ok (), σ1)
    ∧ create_png stored_compress (PyInt 1) "icon.png" σ1 = (Ok (), σ2)
    ∧ files σ2 = files σ1.
Proof.
  destruct (create_png_twice stored_compress 1 "icon.png" empty_world)
    as (σ1 & σ2 & H1 & H2 & _ & Hf & _).
  - lia.
  - apply stored_fits. lia.
  - apply empty_world_open.
  - exists σ1, σ2. repeat split; assumption.
Defined.

(** X4 in the empty world. *)
Lemma main_files_witness :
  ∃ σ',
    main stored_compress empty_world = (Ok (), σ')
    ∧ files σ' !! "icon.png" = Some (spec_png stored_compress 512)
    ∧ files σ' !! "other.png" = None.
Proof.
  destruct (main_files stored_compress stored_bound empty_world
              empty_world_all_open) as (σ' & Hrun & Hin & Hout).
  exists σ'. split; [exact Hrun|]. split.
  - apply Hin. unfold sizes. rewrite !elem_of_cons.
    right. right. right. left. reflexivity.
  - rewrite Hout; [reflexivity|].
    unfold sizes. cbn [fmap list_fmap snd].
    rewrite !elem_of_cons, elem_of_nil. intuition discriminate.
Defined.

(** X5 with 128x128.png refused: only 32x32.png is written. *)
Lemma main_aborts_witness :
  main stored_compress (World ∅ {["128x128.png"]} [])
  = (Raise OSError,
     after_all stored_compress [(32, "32x32.png")]
       (World ∅ {["128x128.png"]} [])).
Proof.
  apply (main_aborts stored_compress stored_bound
           (World ∅ {["128x128.png"]} [])
           [(32, "32x32.png")]
           [(256, "128x128@2x.png"); (512, "icon.png")]
           128 "128x128.png").
  - reflexivity.
  - constructor; [|constructor]. apply others_open. discriminate.
  - apply only_refused.
Defined.

(** X6 in the empty world. *)
Lemma main_twice_witness :
  ∃ σ1 σ2,
    main stored_compress empty_world = (Ok (), σ1)
    ∧ main stored_compress σ1 = (Ok (), σ2)
    ∧ files σ2 = files σ1.
Proof.
  exact (main_twice stored_compress stored_bound empty_world
           empty_world_all_open).
Defined.

(** X7 at size 1 in the empty world. *)
Lemma output_shape_witness :
  ∃ s data,
    PyInt 1 = PyInt s
    ∧ files (after_create empty_world "icon.png" (spec_png stored_compress 1)
               (created_line "icon.png" (PyInt 1))) !! "icon.png"
      = Some data
    ∧ Z.of_nat (length data)
      = 57 + Z.of_nat (length (compressed stored_compress s))
    ∧ take 8 data = png_signature
    ∧ drop (length data - 12) data = iend_chunk.
Proof.
  apply (output_shape stored_compress (PyInt 1) "icon.png" empty_world).
  apply create_png_ok.
  - lia.
  - apply stored_fits. lia.
  - apply empty_world_open.
Defined.

(** ** How a call and a run can fail *)

Section failures.

Variable zlib_compress : bytes → Z → bytes.

Hypothesis compress_bound :
  ∀ data level,
    Z.of_nat (length (zlib_compress data level))
    ≤ compressBound (Z.of_nat (length data)).

Lemma bind_raise {A B : Type} (m : M A) (k : A → M B) (σ σ' : world)
    (e : exn) :
  m σ = (Raise e, σ') → (m ≫= k) σ = (Raise e, σ').
Proof using Type.
  intros H. unfold mbind, M_bind. rewrite H. reflexivity.
Qed.

(** The loop over the table either creates every file, or stops with
    [OSError] at the first one that cannot be opened. *)
Lemma for_each_outcome (xs : list (Z * string)) (σ : world) :
  Forall (λ p : Z * string, 0 ≤ p.1 ≤ 32000) xs →
  (Forall (λ p : Z * string, p.2 ∉ denied σ) xs
   ∧ for_each xs
       (λ '(size, name), create_png zlib_compress (PyInt size) name) σ
     = (Ok (), after_all zlib_compress xs σ))
  ∨ (¬ Forall (λ p : Z * string, p.2 ∉ denied σ) xs
     ∧ ∃ σ',
         for_each xs
           (λ '(size, name), create_png zlib_compress (PyInt size) name) σ
         = (Raise OSError, σ')).
Proof using compress_bound.
  revert σ. induction xs as [|[s name] xs IH]; intros σ Hsmall.
  - left. split; [constructor | reflexivity].
  - apply Forall_cons in Hsmall as [Hs Hsmall]. cbn [fst] in Hs.
    assert (Hfit : Z.of_nat (length (compressed zlib_compress s)) < 2 ^ 32)
      by (apply compressed_fits; [exact compress_bound | lia]).
    cbn [for_each].
    destruct (decide (name ∈ denied σ)) as [Hd|Hd].
    + right. split.
      * intros Hall. apply Forall_cons in Hall as [Hopen _]. exact (Hopen Hd).
      * exists σ. apply bind_raise.
        rewrite create_png_run. unfold encode.
        rewrite bool_decide_eq_true_2 by (split; [lia | exact Hfit]).
        destruct (decide (name ∈ denied σ)); [reflexivity | contradiction].
    + erewrite bind_ok; [|apply create_png_ok; [lia | exact Hfit | exact Hd]].
      destruct (IH (after_create σ name (spec_png zlib_compress s)
                      (created_line name (PyInt s))) Hsmall)
        as [[Hall Hrun]|[Hnot [σ' Hrun]]].
      * left. split; [constructor; [exact Hd | exact Hall]|].
        rewrite Hrun. reflexivity.
      * right. split; [|exists σ'; exact Hrun].
        intros Hall. apply Forall_cons in Hall as [_ Hall].
        exact (Hnot Hall).
Qed.

(** X9: a run of the script returns when all four files can be opened, and
    otherwise raises [OSError]; it never ends in [TypeError],
    [ValueError] or [struct.error]. *)
Theorem main_outcome (σ : world) :
  ∃ σ',
    main zlib_compress σ
    = (if bool_decide (Forall (λ p : Z * string, p.2 ∉ denied σ) sizes)
       then Ok () else Raise OSError,
       σ').
Proof using compress_bound.
  unfold main. unfold mbind, M_bind.
  destruct (for_each_outcome sizes σ sizes_small)
    as [[Hall Hrun]|[Hnot [σ' Hrun]]]; rewrite Hrun.
  - rewrite bool_decide_eq_true_2 by exact Hall. eexists. reflexivity.
  - rewrite bool_decide_eq_false_2 by exact Hnot. eexists. reflexivity.
Qed.

(** X10: for an integer [size] outside 0 .. 2^32 - 1, or whose compressed
    stream has 2^32 bytes or more, [create_png] raises [struct.error] while
    packing a 32-bit field, before the file is opened: nothing is written or
    printed, whether or not the file could have been opened. *)
Theorem struct_error_first (s : Z) (filename : string) (σ : world) :
  ¬ (0 ≤ s < 2 ^ 32
     ∧ Z.of_nat (length (compressed zlib_compress s)) < 2 ^ 32) →
  create_png zlib_compress (PyInt s) filename σ = (Raise StructError, σ).
Proof using Type.
  intros Hbad. rewrite create_png_run. cbn [encode].
  rewrite bool_decide_eq_false_2 by exact Hbad. reflexivity.
Qed.

End failures.

(** X9 with icon.png refused. *)
Lemma main_outcome_witness :
  ∃ σ',
    main stored_compress (World ∅ {["icon.png"]} [])
    = (if bool_decide
            (Forall (λ p : Z * string,
               p.2 ∉ denied (World ∅ {["icon.png"]} [])) sizes)
       then Ok () else Raise OSError,
       σ').
Proof.
  exact (main_outcome stored_compress stored_bound
           (World ∅ {["icon.png"]} [])).
Defined.

(** X2 at size 1 in the empty world. *)
Lemma create_png_returns_only_if_witness :
  ∃ s, PyInt 1 = PyInt s ∧ (0 ≤ s < 2 ^ 32)
       ∧ Z.of_nat (length (compressed stored_compress s)) < 2 ^ 32
       ∧ ("icon.png" ∉ denied empty_world).
Proof.
  apply (create_png_returns_only_if stored_compress (PyInt 1) "icon.png"
           empty_world
           (after_create empty_world "icon.png" (spec_png stored_compress 1)
              (created_line "icon.png" (PyInt 1)))).
  apply create_png_ok.
  - lia.
  - apply stored_fits. lia.
  - apply empty_world_open.
Defined.

(** X10 at size 2^32 with icon.png refused: the exception is that of the
    header, not that of the file. *)
Lemma struct_error_first_witness :
  "icon.png" ∈ denied (World ∅ {["icon.png"]} [])
  ∧ create_png stored_compress (PyInt 4294967296) "icon.png"
      (World ∅ {["icon.png"]} [])
    = (Raise StructError, World ∅ {["icon.png"]} []).
Proof.
  split; [apply only_refused|].
  apply (struct_error_first stored_compress 4294967296 "icon.png"
           (World ∅ {["icon.png"]} [])).
  intros [Hs _]. lia.
Defined.
